(** * KBFS remote block server client: a shallow embedding

    This development embeds two files of package [libkbfs]:

    - [bserver_remote.go]: [BlockServerRemote], the client that turns the
      [BlockServer] interface into RPCs of the [keybase1] block protocol;
    - the start-up code ([useLocalMDServer], [makeMDServer],
      [makeKeyServer], [makeBlockServer], [makeKBPKIClient]), which picks
      the server implementations from the environment and the name of the
      local user.

    Go values are modelled as follows.  A [[]byte] is an [option (list byte)]
    ([None] is the nil slice), a fixed array [[n]byte] is a [list byte] of
    length [n], a [string] is a [String.string], an [error] interface value is
    an [option error] ([None] is [nil]).  A method that talks to the outside
    world is a state transformer over a [State] that holds the remote end, the
    list of RPCs issued so far and the log. *)

From Stdlib Require Import String Ascii List ZArith Bool Lia.
From Stdlib.Strings Require Import Byte.
Import ListNotations.

Local Open Scope string_scope.
Local Open Scope list_scope.
Local Open Scope Z_scope.

(** ** Go built-ins *)

Definition bytes := list byte.

(** A Go [[]byte]; the nil slice is [None]. *)
Definition slice := option bytes.

Definition len (s : slice) : Z :=
  match s with
  | None => 0
  | Some l => Z.of_nat (length l)
  end.

(** Go's built-in [copy(dst, src)] on the contents of two slices: the first
    [min(len(dst), len(src))] elements of [dst] are overwritten. *)
Definition copy (dst src : bytes) : bytes :=
  firstn (length dst) src ++ skipn (length src) dst.

(** The zero value of [[n]byte]. *)
Definition zeroArray (n : nat) : bytes := repeat x00 n.

Definition byte_of_Z (z : Z) : byte :=
  match Byte.of_N (Z.to_N z) with
  | Some b => b
  | None => x00
  end.

(** The line feed, written [\n] in a Go string literal. *)
Definition newline : string := String (ascii_of_nat 10) EmptyString.

(** ** Errors

    [BServerErrorThrottle] is the type [ShouldThrottle] asserts on;
    [hex_ErrLength] and [hex_InvalidByteError] are the two errors of
    [encoding/hex].  Every other error value (the remaining [BServerError...]
    types, [context.Canceled], transport errors), all declared outside these
    files, is an [OtherError] tagged with its class in the taxonomy. *)

Inductive ErrorClass :=
  | NotFound
  | PermissionDenied
  | QuotaExceeded
  | Throttled
  | ConnectionError
  | Canceled
  | Malformed
  | Unclassified.

Inductive error :=
  | BServerErrorThrottle (Msg : string)
  | hex_ErrLength
  | hex_InvalidByteError (c : ascii)
  | OtherError (class : ErrorClass) (Msg : string).

Definition errorClass (e : error) : ErrorClass :=
  match e with
  | BServerErrorThrottle _ => Throttled
  | hex_ErrLength => Malformed
  | hex_InvalidByteError _ => Malformed
  | OtherError c _ => c
  end.

(** ** [encoding/hex] *)

Module hex.

Definition fromHexChar (c : ascii) : option Z :=
  let n := Z.of_N (N_of_ascii c) in
  if (48 <=? n) && (n <=? 57) then Some (n - 48)
  else if (97 <=? n) && (n <=? 102) then Some (n - 97 + 10)
  else if (65 <=? n) && (n <=? 70) then Some (n - 65 + 10)
  else None.

(** [Decode]: two characters make one byte; an invalid character is
    reported before an odd length, and the bytes decoded before the error
    are returned with it.  (Older releases of the library report an odd
    length first and return no bytes on error; [Get] drops the bytes on
    error, and nothing below depends on which of the two errors comes
    out.) *)
Fixpoint Decode (src : list ascii) : bytes * option error :=
  match src with
  | [] => ([], None)
  | [p] =>
      match fromHexChar p with
      | None => ([], Some (hex_InvalidByteError p))
      | Some _ => ([], Some hex_ErrLength)
      end
  | p :: q :: rest =>
      match fromHexChar p with
      | None => ([], Some (hex_InvalidByteError p))
      | Some a =>
          match fromHexChar q with
          | None => ([], Some (hex_InvalidByteError q))
          | Some b =>
              let (dst, err) := Decode rest in
              (byte_of_Z (Z.lor (Z.shiftl a 4) b) :: dst, err)
          end
      end
  end.

Definition DecodeString (s : string) : bytes * option error :=
  Decode (list_ascii_of_string s).

(** What [DecodeString] accepts: an even number of hexadecimal digits. *)
Fixpoint validHexChars (src : list ascii) : bool :=
  match src with
  | [] => true
  | [_] => false
  | p :: q :: rest =>
      match fromHexChar p, fromHexChar q with
      | Some _, Some _ => validHexChars rest
      | _, _ => false
      end
  end.

Definition validHex (s : string) : bool :=
  validHexChars (list_ascii_of_string s).

(** [hextable], and the digit [hextable[n]]. *)
Definition hextable : string := "0123456789abcdef".

Definition hexDigit (n : Z) : ascii :=
  match String.get (Z.to_nat n) hextable with
  | Some c => c
  | None => zero
  end.

(** [Encode]: each byte [v] gives the two digits [hextable[v>>4]] and
    [hextable[v&0x0f]]. *)
Fixpoint Encode (src : bytes) : list ascii :=
  match src with
  | [] => []
  | v :: rest =>
      let n := Z.of_N (Byte.to_N v) in
      hexDigit (Z.shiftr n 4) :: hexDigit (Z.land n 15) :: Encode rest
  end.

Definition EncodeToString (src : bytes) : string :=
  string_of_list_ascii (Encode src).

End hex.

(** ** The [keybase1] block protocol: argument and result records *)

Module keybase1.

(** [keybase1.UID] is a string type. *)
Definition UID := string.

(** The size of [keybase1.BlockRefNonce], an [[8]byte]. *)
Definition BlockRefNonceSize : nat := 8.

Record BlockIdCombo := {
  BlockHash : string;
  ChargedTo : UID
}.

Record GetBlockRes := {
  BlockKey : string;
  Buf : slice
}.

Record EstablishSessionArg := {
  User : UID;
  Sid : string
}.

Record PutBlockArg := {
  put_Bid : BlockIdCombo;
  put_Folder : string;
  put_BlockKey : string;
  put_Buf : slice
}.

Record IncBlockReferenceArg := {
  inc_Bid : BlockIdCombo;
  inc_Nonce : bytes;
  inc_Folder : string;
  inc_ChargedTo : UID
}.

Record DecBlockReferenceArg := {
  dec_Bid : BlockIdCombo;
  dec_Nonce : bytes;
  dec_Folder : string;
  dec_ChargedTo : UID
}.

(** One call of the block protocol, as it goes on the wire. *)
Inductive Request :=
  | ReqEstablishSession (arg : EstablishSessionArg)
  | ReqGetBlock (bid : BlockIdCombo)
  | ReqPutBlock (arg : PutBlockArg)
  | ReqIncBlockReference (arg : IncBlockReferenceArg)
  | ReqDecBlockReference (arg : DecBlockReferenceArg).

(** [keybase1.BlockClient] over a [GenericClient]: what the remote end
    answers to each call, as a transformer of the remote end's state [W]. *)
Record BlockClient (W : Type) := {
  EstablishSession : EstablishSessionArg -> W -> option error * W;
  GetBlock : BlockIdCombo -> W -> (GetBlockRes * option error) * W;
  PutBlock : PutBlockArg -> W -> option error * W;
  IncBlockReference : IncBlockReferenceArg -> W -> option error * W;
  DecBlockReference : DecBlockReferenceArg -> W -> option error * W
}.

Arguments EstablishSession {W}.
Arguments GetBlock {W}.
Arguments PutBlock {W}.
Arguments IncBlockReference {W}.
Arguments DecBlockReference {W}.

End keybase1.

(** ** The logger *)

Inductive LogLevel := LevelDebug | LevelWarning.

Inductive LogArg :=
  | ArgString (s : string)
  | ArgInt (n : Z)
  | ArgError (e : option error).

Record LogEntry := {
  log_level : LogLevel;
  log_format : string;
  log_args : list LogArg
}.

(** ** [context.Context]

    All these methods read of a context is whether it is done: [ctx_Err] is
    [ctx.Err()], [None] as long as the context is live. *)

Record Context := {
  ctx_Err : option error
}.

(** ** The state the methods run in, and its monad *)

Section World.

(** The state of everything outside the process: the block server and the
    identity service. *)
Context {W : Type}.

Record State := {
  remote : W;
  calls : list keybase1.Request;
  logs : list LogEntry
}.

Definition M (A : Type) : Type := State -> A * State.

Definition ret {A : Type} (a : A) : M A := fun s => (a, s).

Definition bind {A B : Type} (m : M A) (k : A -> M B) : M B :=
  fun s => let (a, s') := m s in k a s'.

(** An exchange with the outside that is not a call of the block protocol. *)
Definition outside {A : Type} (h : W -> A * W) : M A :=
  fun s =>
    let (a, w) := h (remote s) in
    (a, {| remote := w; calls := calls s; logs := logs s |}).

(** One call of the block protocol: the request is issued, the remote end
    answers. *)
Definition rpc {A : Type} (req : keybase1.Request) (h : W -> A * W) : M A :=
  fun s =>
    let (a, w) := h (remote s) in
    (a, {| remote := w; calls := calls s ++ [req]; logs := logs s |}).

Definition logf (lvl : LogLevel) (format : string) (args : list LogArg)
  : M unit :=
  fun s =>
    (tt, {| remote := remote s;
            calls := calls s;
            logs := logs s ++ [ {| log_level := lvl;
                                   log_format := format;
                                   log_args := args |} ] |}).

End World.

Arguments State : clear implicits.
Arguments M : clear implicits.

Declare Scope go_scope.
Delimit Scope go_scope with go.

Notation "x <- m ;; k" := (bind m (fun x => k))
  (at level 100, m at next level, right associativity) : go_scope.
Notation "' pat <- m ;; k" := (bind m (fun x => match x with pat => k end))
  (at level 100, pat pattern, m at next level, right associativity) : go_scope.
Notation "m ;;; k" := (bind m (fun _ => k))
  (at level 100, right associativity) : go_scope.

(** ** Declarations of package [libkbfs] that live in other files

    [BlockID], [TlfID] and their [String] methods, the [String] method of
    [BlockCryptKeyServerHalf] and the length of its [ServerHalf] array are
    used by [bserver_remote.go] and declared elsewhere: they are parameters
    of the development. *)

Class Libkbfs := {
  BlockID : Type;
  TlfID : Type;
  BlockID_String : BlockID -> string;
  TlfID_String : TlfID -> string;
  ServerHalfSize : nat;
  ServerHalf_String : bytes -> string
}.

(** [BlockCryptKeyServerHalf]: a struct with one array field. *)
Record BlockCryptKeyServerHalf := {
  ServerHalf : bytes
}.

(** [BlockCryptKeyServerHalf{}] *)
Definition zeroServerHalf `{Libkbfs} : BlockCryptKeyServerHalf :=
  {| ServerHalf := zeroArray ServerHalfSize |}.

(** The [BlockContext] interface; [GetRefNonce] returns a [BlockRefNonce],
    an 8-byte array. *)
Record BlockContext := {
  GetCreator : keybase1.UID;
  GetWriter : keybase1.UID;
  GetRefNonce : bytes
}.

(** The [KBPKI] interface, as far as [OnConnect] uses it. *)
Record KBPKI (W : Type) := {
  GetCurrentToken : Context -> W -> (string * option error) * W;
  GetCurrentUID : Context -> W -> (keybase1.UID * option error) * W
}.

Arguments GetCurrentToken {W}.
Arguments GetCurrentUID {W}.

(** The [Config] interface, as far as [BlockServerRemote] uses it. *)
Record Config (W : Type) := {
  config_KBPKI : KBPKI W
}.

Arguments config_KBPKI {W}.

(** The [ClientFactory] interface. *)
Record ClientFactory (W : Type) := {
  GetClient : Context -> keybase1.BlockClient W;
  factory_Shutdown : W -> W
}.

Arguments GetClient {W}.
Arguments factory_Shutdown {W}.

(** ** [bserver_remote.go] *)

Module bserver_remote.

Import keybase1.

Section BlockServerRemote.

Context `{L : Libkbfs} {W : Type}.

(** The [log] field is the [logs] component of the state. *)
Record BlockServerRemote := {
  config : Config W;
  clientFactory : ClientFactory W;
  blkSrvAddr : string
}.

(** Modelled from the spec: [runUnlessCanceled] is declared in another
    file of the package.  Every data RPC is bound to a caller-supplied
    cancellation signal; if cancellation fires while a call is
    outstanding, the call returns [Canceled] and is not retried.  So [fn]
    is run once, and its result is returned unless the context is done,
    in which case the context's error is returned. *)
Definition runUnlessCanceled (ctx : Context) (fn : M W (option error))
  : M W (option error) :=
  (err <- fn ;;
   match ctx_Err ctx with
   | Some e => ret (Some e)
   | None => ret err
   end)%go.

Definition RemoteAddress (b : BlockServerRemote) : string :=
  blkSrvAddr b.

Definition OnConnect (b : BlockServerRemote) (ctx : Context)
    (client : BlockClient W) : M W (option error) :=
  ('(token, err) <-
     outside (GetCurrentToken (config_KBPKI (config b)) ctx) ;;
   match err with
   | Some _ =>
       logf LevelWarning "BlockServerRemote: error getting session %q"
            [ArgError err] ;;;
       ret err
   | None =>
       '(uid, err) <-
         outside (GetCurrentUID (config_KBPKI (config b)) ctx) ;;
       match err with
       | Some _ => ret err
       | None =>
           let arg := {| User := uid; Sid := token |} in
           logf LevelDebug
                ("BlockServerRemote.OnConnect establish session for uid %s"
                   ++ newline)%string
                [ArgString uid] ;;;
           runUnlessCanceled ctx
             (rpc (ReqEstablishSession arg) (EstablishSession client arg))
       end
   end)%go.

Definition OnConnectError (b : BlockServerRemote) (err : option error)
    (wait : Z) : M W unit :=
  logf LevelWarning
       "BlockServerRemote: connection error: %v; retrying in %s"
       [ArgError err; ArgInt wait].

Definition client (b : BlockServerRemote) (ctx : Context)
  : BlockClient W :=
  GetClient (clientFactory b) ctx.

Definition OnDisconnected (b : BlockServerRemote) : M W unit :=
  logf LevelWarning "BlockServerRemote is disconnected" [].

Definition ShouldThrottle (b : BlockServerRemote) (err : option error)
  : bool :=
  match err with
  | None => false
  | Some e =>
      match e with
      | BServerErrorThrottle _ => true
      | _ => false
      end
  end.

Definition Get (b : BlockServerRemote) (ctx : Context) (id : BlockID)
    (context : BlockContext)
  : M W (slice * BlockCryptKeyServerHalf * option error) :=
  let deferred (size : Z) (err : option error) :=
    logf LevelDebug "BlockServerRemote.Get id=%s uid=%s sz=%d err=%v"
         [ArgString (BlockID_String id); ArgString (GetWriter context);
          ArgInt size; ArgError err] in
  let size := -1 in
  let bid := {| BlockHash := BlockID_String id;
                ChargedTo := GetWriter context |} in
  ('(res, err) <- rpc (ReqGetBlock bid) (GetBlock (client b ctx) bid) ;;
   match err with
   | Some _ =>
       deferred size err ;;;
       ret (None, zeroServerHalf, err)
   | None =>
       let size := len (Buf res) in
       let bk := zeroServerHalf in
       let (kbuf, err) := hex.DecodeString (BlockKey res) in
       match err with
       | Some _ =>
           deferred size err ;;;
           ret (None, zeroServerHalf, err)
       | None =>
           let bk := {| ServerHalf := copy (ServerHalf bk) kbuf |} in
           deferred size None ;;;
           ret (Buf res, bk, None)
       end
   end)%go.

Definition Put (b : BlockServerRemote) (ctx : Context) (id : BlockID)
    (tlfID : TlfID) (context : BlockContext) (buf : slice)
    (serverHalf : BlockCryptKeyServerHalf) : M W (option error) :=
  let size := len buf in
  let arg := {| put_Bid := {| ChargedTo := GetWriter context;
                              BlockHash := BlockID_String id |};
                put_BlockKey := ServerHalf_String (ServerHalf serverHalf);
                put_Folder := TlfID_String tlfID;
                put_Buf := buf |} in
  (err <- rpc (ReqPutBlock arg) (PutBlock (client b ctx) arg) ;;
   logf LevelDebug "BlockServerRemote.Put id=%s uid=%s sz=%d err=%v"
        [ArgString (BlockID_String id); ArgString (GetWriter context);
         ArgInt size; ArgError err] ;;;
   ret err)%go.

Definition AddBlockReference (b : BlockServerRemote) (ctx : Context)
    (id : BlockID) (tlfID : TlfID) (context : BlockContext)
  : M W (option error) :=
  let nonce := GetRefNonce context in
  let arg := {| inc_Bid := {| ChargedTo := GetCreator context;
                              BlockHash := BlockID_String id |};
                inc_Folder := TlfID_String tlfID;
                inc_ChargedTo := GetWriter context;
                inc_Nonce := copy (zeroArray BlockRefNonceSize) nonce |} in
  (err <- rpc (ReqIncBlockReference arg)
              (IncBlockReference (client b ctx) arg) ;;
   logf LevelDebug
        "BlockServerRemote.AddBlockReference id=%s uid=%s err=%v"
        [ArgString (BlockID_String id); ArgString (GetWriter context);
         ArgError err] ;;;
   ret err)%go.

Definition RemoveBlockReference (b : BlockServerRemote) (ctx : Context)
    (id : BlockID) (tlfID : TlfID) (context : BlockContext)
  : M W (option error) :=
  let nonce := GetRefNonce context in
  let arg := {| dec_Bid := {| ChargedTo := GetCreator context;
                              BlockHash := BlockID_String id |};
                dec_Folder := TlfID_String tlfID;
                dec_ChargedTo := GetWriter context;
                dec_Nonce := copy (zeroArray BlockRefNonceSize) nonce |} in
  (err <- rpc (ReqDecBlockReference arg)
              (DecBlockReference (client b ctx) arg) ;;
   logf LevelDebug
        "BlockServerRemote.RemoveBlockReference id=%s uid=%s err=%v"
        [ArgString (BlockID_String id); ArgString (GetWriter context);
         ArgError err] ;;;
   ret err)%go.

Definition Shutdown (b : BlockServerRemote) : M W unit :=
  outside (fun w => (tt, factory_Shutdown (clientFactory b) w)).

End BlockServerRemote.

Arguments BlockServerRemote : clear implicits.

End bserver_remote.

(** The argument of the [GetBlock] call that [Get] issues, for the statements
    below. *)
Definition getBid `{Libkbfs} (id : BlockID) (context : BlockContext)
  : keybase1.BlockIdCombo :=
  {| keybase1.BlockHash := BlockID_String id;
     keybase1.ChargedTo := GetWriter context |}.

(** ** Start-up: choosing the servers from the environment *)

Module init.

(** The two environment variables the start-up code reads.  Their names
    are string constants declared in another file of the package; only
    that they are two variables matters here. *)
Inductive EnvVar := EnvMDServerAddr | EnvBServerAddr.

(** The process environment; an unset variable reads as the empty string,
    as with [os.Getenv]. *)
Definition Environ := EnvVar -> string.

Definition os_Getenv (env : Environ) (key : EnvVar) : string := env key.

(** The implementations of the [MDServer] and [BlockServer] interfaces,
    each named by the constructor that makes it. *)
Inductive MDServer :=
  | NewMDServerMemory
  | NewMDServerLocal (handlePath mdPath revPath : string)
  | NewMDServerRemote (mdSrvAddr : string).

Inductive BlockServer :=
  | NewBlockServerMemory
  | NewBlockServerLocal (blockPath : string)
  | NewBlockServerRemote (blkSrvAddr : string).

Definition isLocalMDServer (s : MDServer) : bool :=
  match s with
  | NewMDServerRemote _ => false
  | _ => true
  end.

Definition isLocalBlockServer (s : BlockServer) : bool :=
  match s with
  | NewBlockServerRemote _ => false
  | _ => true
  end.

(** What a call comes to: it returns, or it panics at run time. *)
Inductive outcome (A : Type) :=
  | Returns (a : A)
  | Panics.

Arguments Returns {A}.
Arguments Panics {A}.

(** The implementations of the [KeyServer] interface.  The remote metadata
    server is also the remote key server: [MDServerRemoteAsKeyServer] is the
    value of [config.MDServer()] at type [*MDServerRemote]. *)
Inductive KeyServer :=
  | NewKeyServerMemory
  | NewKeyServerLocal (keyPath : string)
  | MDServerRemoteAsKeyServer (mdSrvAddr : string).

Definition isLocalKeyServer (s : KeyServer) : bool :=
  match s with
  | MDServerRemoteAsKeyServer _ => false
  | _ => true
  end.

(** [LocalUser], declared in another file: the two fields the start-up code
    reads or writes. *)
Record LocalUser := {
  lu_UID : keybase1.UID;
  lu_Asserts : list string
}.

(** The implementations of the [KBPKI] interface, each named by the call of
    its constructor, whose result the start-up code returns as it is.
    [NewKBPKIClient] talks to the Keybase daemon (it is made after
    [libkb.G.ConfigureSocketInfo()]); the other two serve a fixed list of
    local users. *)
Inductive KBPKIImpl :=
  | NewKBPKIClient
  | NewKBPKIMemory (localUID : keybase1.UID) (localUsers : list LocalUser)
  | NewKBPKILocal (localUID : keybase1.UID) (localUsers : list LocalUser)
      (favPath : string).

(** [s[i]] for reading, and [s[i].Asserts = v]; both panic out of range. *)
Definition index (s : list LocalUser) (i : Z) : outcome LocalUser :=
  if i <? 0 then Panics
  else match nth_error s (Z.to_nat i) with
       | Some u => Returns u
       | None => Panics
       end.

Fixpoint setAsserts (s : list LocalUser) (i : nat) (v : list string)
  : outcome (list LocalUser) :=
  match s, i with
  | [], _ => Panics
  | u :: rest, O =>
      Returns ({| lu_UID := lu_UID u; lu_Asserts := v |} :: rest)
  | u :: rest, S j =>
      match setAsserts rest j v with
      | Returns rest' => Returns (u :: rest')
      | Panics => Panics
      end
  end.

(** The loop [for i := range users] of [makeKBPKIClient], from index [i]:
    the index of the first name equal to [localUser], or [userIndex] as it
    was when there is none. *)
Fixpoint findUser (localUser : string) (users : list string) (i : Z)
    (userIndex : Z) : Z :=
  match users with
  | [] => userIndex
  | u :: rest =>
      if String.eqb localUser u then i
      else findUser localUser rest (i + 1) userIndex
  end.

(** [fmt.Sprintf] of [%v] on a [[]string]. *)
Definition formatStrings (l : list string) : string :=
  ("[" ++ String.concat " " l ++ "]")%string.

Section Make.

(** [filepath.Join], applied to a directory and one file name. *)
Variable filepath_Join : string -> string -> string.

Variable env : Environ.

Definition getMDServerAddr : string := os_Getenv env EnvMDServerAddr.

Definition useLocalMDServer : bool :=
  (String.length getMDServerAddr =? 0)%nat.

Definition useLocalKeyServer : bool := useLocalMDServer.

(** [serverRootDir] is a [*string]: [None] is the nil pointer. *)
Definition makeMDServer (serverRootDir : option string) : MDServer :=
  match serverRootDir with
  | None => NewMDServerMemory
  | Some dir =>
      if useLocalMDServer then
        let handlePath := filepath_Join dir "kbfs_handles" in
        let mdPath := filepath_Join dir "kbfs_md" in
        let revPath := filepath_Join dir "kbfs_revisions" in
        NewMDServerLocal handlePath mdPath revPath
      else
        NewMDServerRemote getMDServerAddr
  end.

(** The first component is what the function prints on standard
    output. *)
Definition makeBlockServer (serverRootDir : option string)
  : list string * BlockServer :=
  let bServerAddr := os_Getenv env EnvBServerAddr in
  if (String.length bServerAddr =? 0)%nat then
    match serverRootDir with
    | None => ([], NewBlockServerMemory)
    | Some dir =>
        let blockPath := filepath_Join dir "kbfs_block" in
        ([], NewBlockServerLocal blockPath)
    end
  else
    (["Using remote bserver " ++ bServerAddr ++ newline]%string,
     NewBlockServerRemote bServerAddr).

(** [config.MDServer()] is the argument [mdServer]; the type assertion to
    [*MDServerRemote] panics on any other implementation. *)
Definition makeKeyServer (mdServer : MDServer)
    (serverRootDir : option string) : outcome KeyServer :=
  match serverRootDir with
  | None => Returns NewKeyServerMemory
  | Some dir =>
      if useLocalKeyServer then
        let keyPath := filepath_Join dir "kbfs_key" in
        Returns (NewKeyServerLocal keyPath)
      else
        match mdServer with
        | NewMDServerRemote addr => Returns (MDServerRemoteAsKeyServer addr)
        | _ => Panics
        end
  end.

(** [MakeLocalUsers], declared in another file. *)
Variable MakeLocalUsers : list string -> list LocalUser.

(** The result is [inl c] when the function returns what the constructor
    call [c] returns, and [inr e] when it returns the error [e] of its
    own. *)

Definition makeKBPKIClient (serverRootDir : option string)
    (localUser : string) : outcome (KBPKIImpl + error) :=
  if String.eqb localUser EmptyString then
    Returns (inl NewKBPKIClient)
  else
    let users := ["strib"; "max"; "chris"; "fred"]%string in
    let userIndex := findUser localUser users 0 (-1) in
    if userIndex <? 0 then
      Returns (inr (OtherError Unclassified
                      ("user " ++ localUser ++ " not in list "
                         ++ formatStrings users)%string))
    else
      let localUsers := MakeLocalUsers users in
      match setAsserts localUsers 0 ["github:strib"%string] with
      | Panics => Panics
      | Returns localUsers =>
      match setAsserts localUsers 1 ["twitter:maxtaco"%string] with
      | Panics => Panics
      | Returns localUsers =>
      match setAsserts localUsers 2 ["twitter:malgorithms"%string] with
      | Panics => Panics
      | Returns localUsers =>
      match setAsserts localUsers 3 ["twitter:fakalin"%string] with
      | Panics => Panics
      | Returns localUsers =>
          let withUID (localUID : keybase1.UID) :=
            match serverRootDir with
            | None => Returns (inl (NewKBPKIMemory localUID localUsers))
            | Some dir =>
                let favPath := filepath_Join dir "kbfs_favs" in
                Returns (inl (NewKBPKILocal localUID localUsers favPath))
            end in
          if userIndex >=? 0 then
            match index localUsers userIndex with
            | Panics => Panics
            | Returns u => withUID (lu_UID u)
            end
          else withUID EmptyString
      end end end end.

End Make.

End init.

(** ** A canned remote end, for concrete runs

    The remote end has no state; it answers [GetBlock] with a response fixed
    in advance, and every other call with a fixed error value. *)

Module canned.

Import keybase1 bserver_remote.

#[global] Instance lib : Libkbfs := {|
  BlockID := string;
  TlfID := string;
  BlockID_String := fun s => s;
  TlfID_String := fun s => s;
  ServerHalfSize := 32;
  ServerHalf_String := fun b => string_of_list_byte b
|}.

Definition blockClient (answer : GetBlockRes * option error)
    (err : option error) : BlockClient unit :=
  {| EstablishSession := fun _ w => (err, w);
     GetBlock := fun _ w => (answer, w);
     PutBlock := fun _ w => (err, w);
     IncBlockReference := fun _ w => (err, w);
     DecBlockReference := fun _ w => (err, w) |}.

Definition kbpki (token : string * option error)
    (uid : UID * option error) : KBPKI unit :=
  {| GetCurrentToken := fun _ w => (token, w);
     GetCurrentUID := fun _ w => (uid, w) |}.

Definition server (answer : GetBlockRes * option error)
    (err : option error) (token : string * option error)
    (uid : UID * option error) : BlockServerRemote unit :=
  {| config := {| config_KBPKI := kbpki token uid |};
     clientFactory := {| GetClient := fun _ => blockClient answer err;
                         factory_Shutdown := fun w => w |};
     blkSrvAddr := "bserver.example:443" |}.

Definition start : State unit :=
  {| remote := tt; calls := []; logs := [] |}.

Definition background : Context := {| ctx_Err := None |}.

Definition alice : BlockContext :=
  {| GetCreator := "creator";
     GetWriter := "writer";
     GetRefNonce := [x01; x02; x03; x04; x05; x06; x07; x08] |}.

Definition hello : slice := Some [x68; x65; x6c; x6c; x6f].

(** Three answers to [GetBlock]: a key that is not hexadecimal, a key of two
    bytes, a key of thirty-three bytes. *)
Definition badKey : GetBlockRes := {| BlockKey := "zz"; Buf := hello |}.

Definition shortKey : GetBlockRes := {| BlockKey := "abcd"; Buf := hello |}.

Definition longKey : GetBlockRes :=
  {| BlockKey :=
       "0102030405060708091011121314151617181920212223242526272829303132ff";
     Buf := hello |}.

Definition noSuchBlock : error := OtherError NotFound "block does not exist".

Definition loggedOut : error := OtherError PermissionDenied "no session".

(** A server that answers [answer] to [GetBlock] and [err] to the other
    calls, with an identity service that knows the token and the user. *)
Definition answering (answer : GetBlockRes * option error)
    (err : option error) : BlockServerRemote unit :=
  server answer err ("token", None) ("uid", None).

(** Joining a directory and a file name as [filepath.Join] does for a
    directory that is not empty and already clean, as [/var/kbfs] is; the
    path is not cleaned.  The general statements take [filepath.Join] as a
    parameter. *)
Definition join (dir elem : string) : string :=
  (dir ++ "/" ++ elem)%string.

(** No address at all; only the block server's address. *)
Definition noAddress : init.Environ := fun _ => EmptyString.

Definition onlyBServerAddr : init.Environ :=
  fun key =>
    match key with
    | init.EnvMDServerAddr => EmptyString
    | init.EnvBServerAddr => "bserver.example:443"
    end.

(** The declarations of the package with the server half written in
    hexadecimal, the encoding [Get] reads back. *)
Definition hexlib : Libkbfs := {|
  BlockID := string;
  TlfID := string;
  BlockID_String := fun s => s;
  TlfID_String := fun s => s;
  ServerHalfSize := 32;
  ServerHalf_String := hex.EncodeToString
|}.

(** A remote end that keeps the blocks it is sent, the latest first, and
    answers [GetBlock] with the latest block put under the same combo. *)
Definition sameCombo (a b : BlockIdCombo) : bool :=
  String.eqb (BlockHash a) (BlockHash b)
  && String.eqb (ChargedTo a) (ChargedTo b).

Fixpoint lookupBlock (bid : BlockIdCombo) (store : list PutBlockArg)
  : option PutBlockArg :=
  match store with
  | [] => None
  | arg :: rest =>
      if sameCombo (put_Bid arg) bid then Some arg else lookupBlock bid rest
  end.

Definition storingClient : BlockClient (list PutBlockArg) :=
  {| EstablishSession := fun _ w => (None, w);
     GetBlock := fun bid w =>
       match lookupBlock bid w with
       | Some arg =>
           ({| BlockKey := put_BlockKey arg; Buf := put_Buf arg |}, None, w)
       | None =>
           ({| BlockKey := EmptyString; Buf := None |}, Some noSuchBlock, w)
       end;
     PutBlock := fun arg w => (None, arg :: w);
     IncBlockReference := fun _ w => (None, w);
     DecBlockReference := fun _ w => (None, w) |}.

Definition storing : BlockServerRemote (list PutBlockArg) :=
  {| config :=
       {| config_KBPKI :=
            {| GetCurrentToken := fun _ w => ("token", None, w);
               GetCurrentUID := fun _ w => ("uid", None, w) |} |};
     clientFactory := {| GetClient := fun _ => storingClient;
                         factory_Shutdown := fun w => w |};
     blkSrvAddr := "bserver.example:443" |}.

Definition empty : State (list PutBlockArg) :=
  {| remote := []; calls := []; logs := [] |}.

(** A server half of thirty-two bytes. *)
Definition key32 : BlockCryptKeyServerHalf :=
  {| ServerHalf :=
       [x00; x01; x02; x03; x04; x05; x06; x07;
        x10; x11; x12; x13; x14; x15; x16; x17;
        xa0; xa1; xa2; xa3; xa4; xa5; xa6; xa7;
        xf8; xf9; xfa; xfb; xfc; xfd; xfe; xff] |}.

(** An identity service whose token lookup fails. *)
Definition noToken : BlockServerRemote unit :=
  server (shortKey, None) None (EmptyString, Some loggedOut) ("uid", None).

Definition throttled : error := BServerErrorThrottle "slow down".

(** One local user for each name. *)
Definition localUsersOf (names : list string) : list init.LocalUser :=
  map (fun n => {| init.lu_UID := ("uid-" ++ n)%string;
                   init.lu_Asserts := [] |}) names.

(** Only the metadata server's address; both addresses. *)
Definition onlyMDServerAddr : init.Environ :=
  fun key =>
    match key with
    | init.EnvMDServerAddr => "mdserver.example:443"
    | init.EnvBServerAddr => EmptyString
    end.

Definition bothAddresses : init.Environ :=
  fun key =>
    match key with
    | init.EnvMDServerAddr => "mdserver.example:443"
    | init.EnvBServerAddr => "bserver.example:443"
    end.

End canned.

(** * Properties *)

(** ** [copy] and [encoding/hex] *)

Lemma copy_length (dst src : bytes) :
  length (copy dst src) = length dst.
Proof.
  unfold copy.
  rewrite length_app, length_firstn, length_skipn.
  lia.
Qed.

Lemma copy_zeroArray (n : nat) (src : bytes) :
  copy (zeroArray n) src = firstn n src ++ repeat x00 (n - length src).
Proof.
  unfold copy, zeroArray.
  rewrite repeat_length.
  f_equal.
  revert n.
  induction src as [|c src IH]; intros n; simpl.
  - now rewrite Nat.sub_0_r.
  - destruct n as [|n]; simpl; [reflexivity | apply IH].
Qed.

Lemma copy_same_length (dst src : bytes) :
  length src = length dst -> copy dst src = src.
Proof.
  intros Hlen.
  unfold copy.
  rewrite <- Hlen, firstn_all, skipn_all2 by lia.
  apply app_nil_r.
Qed.

Lemma list_ascii_length (s : string) :
  length (list_ascii_of_string s) = String.length s.
Proof.
  induction s as [|c s IH]; simpl; congruence.
Qed.

(** Induction two characters at a time, the way [hex.Decode] reads. *)
Lemma pairs_ind (A : Type) (P : list A -> Prop) :
  P [] ->
  (forall a, P [a]) ->
  (forall a b l, P l -> P (a :: b :: l)) ->
  forall l, P l.
Proof.
  intros H0 H1 H2.
  fix IH 1.
  intros [|a [|b l]]; [exact H0 | apply H1 | apply H2, IH].
Qed.

Lemma Decode_error_kind (src : list ascii) (e : error) :
  snd (hex.Decode src) = Some e ->
  e = hex_ErrLength \/ exists c, e = hex_InvalidByteError c.
Proof.
  induction src as [|p|p q rest IH] using pairs_ind; simpl.
  - discriminate.
  - destruct (hex.fromHexChar p); intros [= <-]; eauto.
  - destruct (hex.fromHexChar p); [|intros [= <-]; eauto].
    destruct (hex.fromHexChar q); [|intros [= <-]; eauto].
    destruct (hex.Decode rest) as [dst err]; simpl in *; exact IH.
Qed.

Lemma Decode_valid (src : list ascii) :
  hex.validHexChars src = true <-> snd (hex.Decode src) = None.
Proof.
  induction src as [|p|p q rest IH] using pairs_ind; simpl.
  - tauto.
  - destruct (hex.fromHexChar p); simpl; split; discriminate.
  - destruct (hex.fromHexChar p); [|simpl; split; discriminate].
    destruct (hex.fromHexChar q); [|simpl; split; discriminate].
    destruct (hex.Decode rest) as [dst err]; simpl in *; exact IH.
Qed.

Lemma Decode_length (src : list ascii) :
  snd (hex.Decode src) = None ->
  (2 * length (fst (hex.Decode src)) = length src)%nat.
Proof.
  induction src as [|p|p q rest IH] using pairs_ind; simpl.
  - reflexivity.
  - destruct (hex.fromHexChar p); discriminate.
  - destruct (hex.fromHexChar p); [|discriminate].
    destruct (hex.fromHexChar q); [|discriminate].
    destruct (hex.Decode rest) as [dst err]; simpl in *.
    intros H; specialize (IH H); lia.
Qed.


(** ** [BlockServerRemote] *)

Section BlockServerRemoteProperties.

Import keybase1 bserver_remote.

Context `{L : Libkbfs} {W : Type}.

Implicit Types (b : BlockServerRemote W) (ctx : Context) (id : BlockID)
  (tlfID : TlfID) (context : BlockContext) (s : State W).

Ltac run :=
  unfold Get, Put, AddBlockReference, RemoveBlockReference, OnConnect,
    runUnlessCanceled, bind, rpc, outside, logf, ret; simpl.

(** The three ways through [Get]. *)

Lemma Get_rpc_failed b ctx id context s res e w :
  GetBlock (client b ctx) (getBid id context) (remote s) = ((res, Some e), w) ->
  fst (Get b ctx id context s) = (None, zeroServerHalf, Some e).
Proof.
  intros Hrpc. run. fold (getBid id context). now rewrite Hrpc.
Qed.

Lemma Get_decode_failed b ctx id context s res w kbuf e :
  GetBlock (client b ctx) (getBid id context) (remote s) = ((res, None), w) ->
  hex.DecodeString (BlockKey res) = (kbuf, Some e) ->
  fst (Get b ctx id context s) = (None, zeroServerHalf, Some e).
Proof.
  intros Hrpc Hdec. run. fold (getBid id context).
  now rewrite Hrpc, Hdec.
Qed.

Lemma Get_decoded b ctx id context s res w kbuf :
  GetBlock (client b ctx) (getBid id context) (remote s) = ((res, None), w) ->
  hex.DecodeString (BlockKey res) = (kbuf, None) ->
  fst (Get b ctx id context s) =
    (Buf res,
     {| ServerHalf := copy (zeroArray ServerHalfSize) kbuf |},
     None).
Proof.
  intros Hrpc Hdec. run. fold (getBid id context).
  now rewrite Hrpc, Hdec.
Qed.

Lemma Get_calls b ctx id context s :
  calls (snd (Get b ctx id context s)) =
    calls s ++ [ReqGetBlock (getBid id context)].
Proof.
  run. fold (getBid id context).
  destruct (GetBlock _ _ _) as [[res [e|]] w]; simpl; [reflexivity|].
  destruct (hex.DecodeString _) as [kbuf [e|]]; reflexivity.
Qed.

Lemma Get_remote b ctx id context s :
  remote (snd (Get b ctx id context s)) =
    snd (GetBlock (client b ctx) (getBid id context) (remote s)).
Proof.
  run. fold (getBid id context).
  destruct (GetBlock _ _ _) as [[res [e|]] w]; simpl; [reflexivity|].
  destruct (hex.DecodeString _) as [kbuf [e|]]; reflexivity.
Qed.

(** C1: when the [GetBlock] call succeeds and the key string of the
    response does not decode from hexadecimal, [Get] fails with the error of
    the decoder, one of the two errors of [encoding/hex]; its class is
    [Malformed], which is neither the class of transport errors nor that of
    not-found errors. *)
Theorem Get_undecodable_key_is_malformed b ctx id context s res w e :
  GetBlock (client b ctx) (getBid id context) (remote s) = ((res, None), w) ->
  snd (hex.DecodeString (BlockKey res)) = Some e ->
  fst (Get b ctx id context s) = (None, zeroServerHalf, Some e) /\
  (e = hex_ErrLength \/ exists c, e = hex_InvalidByteError c) /\
  errorClass e = Malformed /\
  errorClass e <> ConnectionError /\
  errorClass e <> NotFound.
Proof.
  intros Hrpc Hdec.
  destruct (hex.DecodeString (BlockKey res)) as [kbuf err] eqn:E.
  simpl in Hdec; subst err.
  split; [eapply Get_decode_failed; eassumption|].
  assert (Hkind : e = hex_ErrLength \/ exists c, e = hex_InvalidByteError c).
  { apply (Decode_error_kind (list_ascii_of_string (BlockKey res))).
    unfold hex.DecodeString in E. now rewrite E. }
  split; [exact Hkind|].
  destruct Hkind as [-> | [c ->]]; simpl; repeat split; discriminate.
Qed.


(** C3: for a context whose reference nonce is the 8-byte array of its
    type, the one request [AddBlockReference] issues is an
    [IncBlockReference], and the one [RemoveBlockReference] issues is a
    [DecBlockReference], whose nonce is the context's nonce byte for byte,
    whose top-level [ChargedTo] is the context's writer, and whose block-id
    combo is charged to the context's creator. *)
Theorem reference_requests_carry_nonce_writer_creator
    b ctx id tlfID context s :
  length (GetRefNonce context) = BlockRefNonceSize ->
  calls (snd (AddBlockReference b ctx id tlfID context s)) =
    calls s ++
    [ReqIncBlockReference
       {| inc_Bid := {| BlockHash := BlockID_String id;
                        ChargedTo := GetCreator context |};
          inc_Nonce := GetRefNonce context;
          inc_Folder := TlfID_String tlfID;
          inc_ChargedTo := GetWriter context |}] /\
  calls (snd (RemoveBlockReference b ctx id tlfID context s)) =
    calls s ++
    [ReqDecBlockReference
       {| dec_Bid := {| BlockHash := BlockID_String id;
                        ChargedTo := GetCreator context |};
          dec_Nonce := GetRefNonce context;
          dec_Folder := TlfID_String tlfID;
          dec_ChargedTo := GetWriter context |}].
Proof.
  intros Hlen.
  assert (Hcopy : copy (zeroArray BlockRefNonceSize) (GetRefNonce context)
                  = GetRefNonce context).
  { apply copy_same_length. unfold zeroArray. now rewrite repeat_length. }
  split; run; rewrite Hcopy.
  - now destruct (IncBlockReference _ _ _).
  - now destruct (DecBlockReference _ _ _).
Qed.

(** C4: [OnConnect] asks the identity service for the token, then for the
    user ID.  If the token lookup fails, or if it succeeds and the user-ID
    lookup fails, [OnConnect] returns that error and issues no call.
    Otherwise it issues exactly one call, [EstablishSession] with that user
    ID and that token, and no other; it returns the call's result, or the
    context's error when the context is done. *)
Theorem OnConnect_establishes_session_once
    b ctx (cli : BlockClient W) s token terr w1 uid uerr w2 :
  GetCurrentToken (config_KBPKI (config b)) ctx (remote s)
    = ((token, terr), w1) ->
  GetCurrentUID (config_KBPKI (config b)) ctx w1 = ((uid, uerr), w2) ->
  (forall e, terr = Some e ->
     fst (OnConnect b ctx cli s) = Some e /\
     calls (snd (OnConnect b ctx cli s)) = calls s) /\
  (forall e, terr = None -> uerr = Some e ->
     fst (OnConnect b ctx cli s) = Some e /\
     calls (snd (OnConnect b ctx cli s)) = calls s) /\
  (terr = None -> uerr = None ->
     calls (snd (OnConnect b ctx cli s)) =
       calls s ++ [ReqEstablishSession {| User := uid; Sid := token |}] /\
     fst (OnConnect b ctx cli s) =
       match ctx_Err ctx with
       | Some e => Some e
       | None =>
           fst (EstablishSession cli {| User := uid; Sid := token |} w2)
       end).
Proof.
  intros Htoken Huid.
  repeat split; intros; subst; run; rewrite Htoken; simpl;
    try reflexivity; rewrite Huid; simpl; try reflexivity.
  - now destruct (EstablishSession _ _ _), (ctx_Err ctx).
  - now destruct (EstablishSession _ _ _), (ctx_Err ctx).
Qed.

(** C5: [ShouldThrottle] answers [true] exactly on an error of type
    [BServerErrorThrottle]; it answers [false] on the nil error, on the
    errors of the hexadecimal decoder and on every other error, whatever its
    class (connection, cancellation, not found, permission, quota). *)
Theorem ShouldThrottle_iff_throttle_error b (err : option error) :
  (ShouldThrottle b err = true <->
     exists msg, err = Some (BServerErrorThrottle msg)) /\
  ShouldThrottle b None = false /\
  (forall c msg, ShouldThrottle b (Some (OtherError c msg)) = false) /\
  ShouldThrottle b (Some hex_ErrLength) = false /\
  (forall c, ShouldThrottle b (Some (hex_InvalidByteError c)) = false).
Proof.
  repeat split; try reflexivity.
  - destruct err as [[msg| |c|c msg]|]; simpl; try discriminate.
    intros _; now exists msg.
  - intros [msg ->]; reflexivity.
Qed.

(** C6, as the code has it: when the [GetBlock] call succeeds and the key
    string of the response decodes from hexadecimal, [Get] returns the
    response's buffer as it is, no error, and a server half made of the
    first [ServerHalfSize] decoded bytes followed by zero bytes up to
    [ServerHalfSize]; these are the decoded bytes themselves when there are
    [ServerHalfSize] of them.  The one request issued is a [GetBlock] for
    the block ID's string, charged to the context's writer. *)
Theorem Get_returns_buffer_and_fitted_key b ctx id context s res w kbuf :
  GetBlock (client b ctx) (getBid id context) (remote s) = ((res, None), w) ->
  hex.DecodeString (BlockKey res) = (kbuf, None) ->
  exists bk,
    fst (Get b ctx id context s) = (Buf res, bk, None) /\
    ServerHalf bk =
      firstn ServerHalfSize kbuf ++
      repeat x00 (ServerHalfSize - length kbuf) /\
    (length kbuf = ServerHalfSize -> ServerHalf bk = kbuf) /\
    calls (snd (Get b ctx id context s)) =
      calls s ++ [ReqGetBlock {| BlockHash := BlockID_String id;
                                 ChargedTo := GetWriter context |}].
Proof.
  intros Hrpc Hdec.
  exists {| ServerHalf := copy (zeroArray ServerHalfSize) kbuf |}.
  split; [eapply Get_decoded; eassumption|].
  split; [apply copy_zeroArray|].
  split; [|apply Get_calls].
  intros Hlen; simpl.
  apply copy_same_length. unfold zeroArray. now rewrite repeat_length.
Qed.

(** C7: the one request [Put] issues is a [PutBlock] with the folder ID's
    string, the server half's string, the buffer as given, the block ID's
    string and the context's writer as [ChargedTo]; [Put] returns what that
    call returns. *)
Theorem Put_issues_one_PutBlock_and_returns_its_result
    b ctx id tlfID context (buf : slice)
    (serverHalf : BlockCryptKeyServerHalf) s :
  calls (snd (Put b ctx id tlfID context buf serverHalf s)) =
    calls s ++
    [ReqPutBlock
       {| put_Bid := {| BlockHash := BlockID_String id;
                        ChargedTo := GetWriter context |};
          put_Folder := TlfID_String tlfID;
          put_BlockKey := ServerHalf_String (ServerHalf serverHalf);
          put_Buf := buf |}] /\
  fst (Put b ctx id tlfID context buf serverHalf s) =
    fst (PutBlock (client b ctx)
           {| put_Bid := {| BlockHash := BlockID_String id;
                            ChargedTo := GetWriter context |};
              put_Folder := TlfID_String tlfID;
              put_BlockKey := ServerHalf_String (ServerHalf serverHalf);
              put_Buf := buf |}
           (remote s)).
Proof.
  run. now destruct (PutBlock _ _ _).
Qed.

(** C8: each of [Get], [Put], [AddBlockReference] and
    [RemoveBlockReference] issues exactly one call: the list of calls grows
    by one request and the remote end moves by one answer.  The error of
    that call is the error the method returns; no second attempt is made. *)
Theorem each_method_issues_one_call_and_returns_its_error
    b ctx id tlfID context (buf : slice)
    (serverHalf : BlockCryptKeyServerHalf) s :
  (exists bid,
     calls (snd (Get b ctx id context s)) = calls s ++ [ReqGetBlock bid] /\
     remote (snd (Get b ctx id context s)) =
       snd (GetBlock (client b ctx) bid (remote s)) /\
     forall e,
       snd (fst (GetBlock (client b ctx) bid (remote s))) = Some e ->
       snd (fst (Get b ctx id context s)) = Some e) /\
  (exists arg,
     calls (snd (Put b ctx id tlfID context buf serverHalf s)) =
       calls s ++ [ReqPutBlock arg] /\
     remote (snd (Put b ctx id tlfID context buf serverHalf s)) =
       snd (PutBlock (client b ctx) arg (remote s)) /\
     fst (Put b ctx id tlfID context buf serverHalf s) =
       fst (PutBlock (client b ctx) arg (remote s))) /\
  (exists arg,
     calls (snd (AddBlockReference b ctx id tlfID context s)) =
       calls s ++ [ReqIncBlockReference arg] /\
     remote (snd (AddBlockReference b ctx id tlfID context s)) =
       snd (IncBlockReference (client b ctx) arg (remote s)) /\
     fst (AddBlockReference b ctx id tlfID context s) =
       fst (IncBlockReference (client b ctx) arg (remote s))) /\
  (exists arg,
     calls (snd (RemoveBlockReference b ctx id tlfID context s)) =
       calls s ++ [ReqDecBlockReference arg] /\
     remote (snd (RemoveBlockReference b ctx id tlfID context s)) =
       snd (DecBlockReference (client b ctx) arg (remote s)) /\
     fst (RemoveBlockReference b ctx id tlfID context s) =
       fst (DecBlockReference (client b ctx) arg (remote s))).
Proof.
  repeat apply conj.
  - exists (getBid id context).
    split; [apply Get_calls|]. split; [apply Get_remote|].
    intros e He.
    destruct (GetBlock (client b ctx) (getBid id context) (remote s))
      as [[res err] w] eqn:Hrpc.
    simpl in He; subst err.
    now rewrite (Get_rpc_failed _ _ _ _ _ _ _ _ Hrpc).
  - eexists. run.
    split; [now destruct (PutBlock _ _ _) | now destruct (PutBlock _ _ _)].
  - eexists. run.
    split; [now destruct (IncBlockReference _ _ _)
           | now destruct (IncBlockReference _ _ _)].
  - eexists. run.
    split; [now destruct (DecBlockReference _ _ _)
           | now destruct (DecBlockReference _ _ _)].
Qed.

(** C9: the length of the decoded key never makes [Get] fail.  When the
    [GetBlock] call succeeds and the key string is valid hexadecimal (an
    even number of hexadecimal digits, of any length), [Get] succeeds with
    the response's buffer; the server half has [ServerHalfSize] bytes, the
    first [ServerHalfSize] decoded bytes at most, and zero bytes after them
    when the decoded key is shorter. *)
Theorem Get_fits_key_of_any_length b ctx id context s res w :
  GetBlock (client b ctx) (getBid id context) (remote s) = ((res, None), w) ->
  hex.validHex (BlockKey res) = true ->
  exists bk kbuf,
    fst (Get b ctx id context s) = (Buf res, bk, None) /\
    hex.DecodeString (BlockKey res) = (kbuf, None) /\
    (2 * length kbuf = String.length (BlockKey res))%nat /\
    length (ServerHalf bk) = ServerHalfSize /\
    ServerHalf bk =
      firstn ServerHalfSize kbuf ++
      repeat x00 (ServerHalfSize - length kbuf).
Proof.
  intros Hrpc Hvalid.
  unfold hex.validHex in Hvalid. apply Decode_valid in Hvalid.
  pose proof (Decode_length _ Hvalid) as Hlen.
  destruct (hex.DecodeString (BlockKey res)) as [kbuf err] eqn:Hdec.
  unfold hex.DecodeString in Hdec. rewrite Hdec in Hvalid, Hlen.
  simpl in Hvalid, Hlen. subst err.
  exists {| ServerHalf := copy (zeroArray ServerHalfSize) kbuf |}, kbuf.
  split; [eapply Get_decoded; eassumption|].
  split; [reflexivity|].
  split.
  { rewrite <- list_ascii_length. simpl; exact Hlen. }
  split; simpl.
  - rewrite copy_length. unfold zeroArray. apply repeat_length.
  - apply copy_zeroArray.
Qed.

(** C10: whenever [Get] returns an error, from the call or from the
    decoder, the bytes it returns are the nil slice and the server half is
    the zero value. *)
Theorem Get_error_returns_nil_and_zero_key
    b ctx id context s (buf : slice) (bk : BlockCryptKeyServerHalf)
    (e : error) :
  fst (Get b ctx id context s) = (buf, bk, Some e) ->
  buf = None /\ bk = zeroServerHalf.
Proof.
  destruct (GetBlock (client b ctx) (getBid id context) (remote s))
    as [[res [e1|]] w] eqn:Hrpc.
  - rewrite (Get_rpc_failed _ _ _ _ _ _ _ _ Hrpc). now intros [= <- <- _].
  - destruct (hex.DecodeString (BlockKey res)) as [kbuf [e2|]] eqn:Hdec.
    + rewrite (Get_decode_failed _ _ _ _ _ _ _ _ _ Hrpc Hdec).
      now intros [= <- <- _].
    + rewrite (Get_decoded _ _ _ _ _ _ _ _ Hrpc Hdec). discriminate.
Qed.

End BlockServerRemoteProperties.

(** ** Start-up *)

Section MakeProperties.

Import init.

Variable filepath_Join : string -> string -> string.

Lemma length_zero_empty (s : string) :
  (String.length s =? 0)%nat = true <-> s = EmptyString.
Proof.
  destruct s; simpl; split; congruence.
Qed.

(** C2, as the code has it: when the metadata server's address is absent,
    the metadata server is a local one (in memory or on disk).  The block
    server is chosen by the block server's address alone, in every
    environment, whatever the metadata server's address: it is a local one
    exactly when that address is absent, and the remote client for that
    address otherwise. *)
Theorem no_md_address_local_md_server_and_block_server_by_own_address
    (env : Environ) (serverRootDir : option string) :
  (os_Getenv env EnvMDServerAddr = EmptyString ->
   useLocalMDServer env = true /\
   isLocalMDServer (makeMDServer filepath_Join env serverRootDir) = true) /\
  (isLocalBlockServer (snd (makeBlockServer filepath_Join env serverRootDir))
     = true <->
   os_Getenv env EnvBServerAddr = EmptyString) /\
  (os_Getenv env EnvBServerAddr <> EmptyString ->
   snd (makeBlockServer filepath_Join env serverRootDir) =
     NewBlockServerRemote (os_Getenv env EnvBServerAddr)).
Proof.
  split.
  { intros Hmd.
    assert (Hlocal : useLocalMDServer env = true).
    { unfold useLocalMDServer, getMDServerAddr. now rewrite Hmd. }
    split; [exact Hlocal|].
    unfold makeMDServer. rewrite Hlocal. now destruct serverRootDir. }
  unfold makeBlockServer.
  destruct (String.length (os_Getenv env EnvBServerAddr) =? 0)%nat eqn:E.
  - apply length_zero_empty in E.
    split; [|congruence].
    destruct serverRootDir; simpl; tauto.
  - split; [|reflexivity]. simpl.
    split; [discriminate|].
    intros H. apply length_zero_empty in H. congruence.
Qed.

End MakeProperties.

(** ** Concrete runs *)

Import keybase1 bserver_remote init canned.

(** A key string that is not hexadecimal: [Get] fails with the decoder's
    error. *)
Lemma Get_undecodable_key_is_malformed_witness :
  GetBlock (client (answering (badKey, None) None) background)
           (getBid "block" alice) (remote start) = ((badKey, None), tt) /\
  snd (hex.DecodeString (BlockKey badKey)) = Some (hex_InvalidByteError "z") /\
  fst (Get (answering (badKey, None) None) background "block" alice start) =
    (None, zeroServerHalf, Some (hex_InvalidByteError "z")).
Proof.
  split; [reflexivity|]. split; [reflexivity|].
  exact (proj1 (Get_undecodable_key_is_malformed
                  (answering (badKey, None) None) background "block" alice
                  start badKey tt (hex_InvalidByteError "z")
                  eq_refl eq_refl)).
Defined.

(** C2 as stated fails: with no metadata server address and a block server
    address, the block server is the remote client. *)
Lemma no_md_address_yet_remote_block_server :
  os_Getenv onlyBServerAddr EnvMDServerAddr = EmptyString /\
  useLocalMDServer onlyBServerAddr = true /\
  makeBlockServer join onlyBServerAddr None =
    ([("Using remote bserver bserver.example:443" ++ newline)%string],
     NewBlockServerRemote "bserver.example:443") /\
  isLocalBlockServer (snd (makeBlockServer join onlyBServerAddr None)) = false.
Proof.
  repeat split.
Qed.

(** No address in the environment and a root directory: the metadata
    server is the on-disk one.  Both addresses: the block server is the
    remote client. *)
Lemma no_md_address_witness :
  os_Getenv noAddress EnvMDServerAddr = EmptyString /\
  makeMDServer join noAddress (Some "/var/kbfs") =
    NewMDServerLocal "/var/kbfs/kbfs_handles" "/var/kbfs/kbfs_md"
                     "/var/kbfs/kbfs_revisions" /\
  isLocalMDServer (makeMDServer join noAddress (Some "/var/kbfs")) = true /\
  os_Getenv bothAddresses EnvBServerAddr = "bserver.example:443" /\
  snd (makeBlockServer join bothAddresses (Some "/var/kbfs")) =
    NewBlockServerRemote "bserver.example:443".
Proof.
  split; [reflexivity|]. split; [reflexivity|].
  split.
  - exact (proj2 (proj1
      (no_md_address_local_md_server_and_block_server_by_own_address
         join noAddress (Some "/var/kbfs")) eq_refl)).
  - split; [reflexivity|].
    apply (proj2 (proj2
      (no_md_address_local_md_server_and_block_server_by_own_address
         join bothAddresses (Some "/var/kbfs")))).
    discriminate.
Defined.

(** The request [AddBlockReference] issues for an 8-byte nonce. *)
Lemma reference_requests_witness :
  length (GetRefNonce alice) = BlockRefNonceSize /\
  calls (snd (AddBlockReference (answering (shortKey, None) None) background
                "block" "folder" alice start)) =
    [ReqIncBlockReference
       {| inc_Bid := {| BlockHash := "block"; ChargedTo := "creator" |};
          inc_Nonce := [x01; x02; x03; x04; x05; x06; x07; x08];
          inc_Folder := "folder";
          inc_ChargedTo := "writer" |}].
Proof.
  split; [reflexivity|].
  exact (proj1 (reference_requests_carry_nonce_writer_creator
                  (answering (shortKey, None) None) background
                  "block" "folder" alice start eq_refl)).
Defined.

(** A session is established when both lookups succeed; no call is issued
    when the user-ID lookup fails. *)
Lemma OnConnect_witness :
  calls (snd (OnConnect (answering (shortKey, None) None) background
                (blockClient (shortKey, None) None) start)) =
    [ReqEstablishSession {| User := "uid"; Sid := "token" |}] /\
  fst (OnConnect (server (shortKey, None) None
                    ("token", None) (EmptyString, Some loggedOut))
         background (blockClient (shortKey, None) None) start) =
    Some loggedOut /\
  calls (snd (OnConnect (server (shortKey, None) None
                           ("token", None) (EmptyString, Some loggedOut))
                background (blockClient (shortKey, None) None) start)) = [].
Proof.
  split.
  - exact (proj1 (proj2 (proj2
      (OnConnect_establishes_session_once
         (answering (shortKey, None) None) background
         (blockClient (shortKey, None) None) start
         "token" None tt "uid" None tt eq_refl eq_refl))
      eq_refl eq_refl)).
  - exact (proj1 (proj2
      (OnConnect_establishes_session_once
         (server (shortKey, None) None
            ("token", None) (EmptyString, Some loggedOut))
         background (blockClient (shortKey, None) None) start
         "token" None tt EmptyString (Some loggedOut) tt eq_refl eq_refl))
      loggedOut eq_refl eq_refl).
Defined.

(** C6 as stated fails: a key string of two bytes decodes, and the server
    half returned is not the two decoded bytes but an array of
    [ServerHalfSize] bytes that starts with them. *)
Lemma Get_key_is_not_the_decoded_bytes :
  GetBlock (client (answering (shortKey, None) None) background)
           (getBid "block" alice) (remote start) = ((shortKey, None), tt) /\
  hex.DecodeString (BlockKey shortKey) = ([xab; xcd], None) /\
  fst (Get (answering (shortKey, None) None) background "block" alice start)
    = (hello, {| ServerHalf := [xab; xcd] ++ repeat x00 30 |}, None) /\
  [xab; xcd] ++ repeat x00 30 <> [xab; xcd].
Proof.
  repeat split. discriminate.
Qed.

(** A key of two bytes is returned padded with thirty zero bytes. *)
Lemma Get_returns_buffer_and_fitted_key_witness :
  GetBlock (client (answering (shortKey, None) None) background)
           (getBid "block" alice) (remote start) = ((shortKey, None), tt) /\
  hex.DecodeString (BlockKey shortKey) = ([xab; xcd], None) /\
  exists bk,
    fst (Get (answering (shortKey, None) None) background "block" alice start)
      = (hello, bk, None) /\
    ServerHalf bk = [xab; xcd] ++ repeat x00 30 /\
    (length [xab; xcd] = 32%nat -> ServerHalf bk = [xab; xcd]) /\
    calls (snd (Get (answering (shortKey, None) None) background "block"
                  alice start)) =
      [ReqGetBlock {| BlockHash := "block"; ChargedTo := "writer" |}].
Proof.
  split; [reflexivity|]. split; [reflexivity|].
  exact (Get_returns_buffer_and_fitted_key
           (answering (shortKey, None) None) background "block" alice start
           shortKey tt [xab; xcd] eq_refl eq_refl).
Defined.

(** The error of a failed [GetBlock] is the error of [Get]. *)
Lemma each_method_witness :
  snd (fst (GetBlock (client (answering (shortKey, Some noSuchBlock) None)
                        background)
              (getBid "block" alice) (remote start))) = Some noSuchBlock /\
  snd (fst (Get (answering (shortKey, Some noSuchBlock) None) background
              "block" alice start)) = Some noSuchBlock.
Proof.
  split; [reflexivity|].
  destruct (proj1 (each_method_issues_one_call_and_returns_its_error
                     (L := lib)
                     (answering (shortKey, Some noSuchBlock) None) background
                     "block" "folder" alice hello zeroServerHalf start))
    as [bid [Hcalls [_ Herr]]].
  injection Hcalls as <-.
  exact (Herr noSuchBlock eq_refl).
Defined.

(** A key of thirty-three bytes is accepted. *)
Lemma Get_fits_key_of_any_length_witness :
  GetBlock (client (answering (longKey, None) None) background)
           (getBid "block" alice) (remote start) = ((longKey, None), tt) /\
  hex.validHex (BlockKey longKey) = true /\
  String.length (BlockKey longKey) = 66%nat /\
  exists bk kbuf,
    fst (Get (answering (longKey, None) None) background "block" alice start)
      = (hello, bk, None) /\
    hex.DecodeString (BlockKey longKey) = (kbuf, None) /\
    (2 * length kbuf = 66)%nat /\
    length (ServerHalf bk) = 32%nat /\
    ServerHalf bk = firstn 32 kbuf ++ repeat x00 (32 - length kbuf).
Proof.
  split; [reflexivity|]. split; [reflexivity|]. split; [reflexivity|].
  exact (Get_fits_key_of_any_length
           (answering (longKey, None) None) background "block" alice start
           longKey tt eq_refl eq_refl).
Defined.

(** A failed [GetBlock] whose response carries a buffer: [Get] returns no
    bytes. *)
Lemma Get_error_witness :
  fst (Get (answering (shortKey, Some noSuchBlock) None) background
         "block" alice start) = (None, zeroServerHalf, Some noSuchBlock) /\
  (@None bytes = None /\ zeroServerHalf = zeroServerHalf).
Proof.
  split; [reflexivity|].
  exact (Get_error_returns_nil_and_zero_key
           (answering (shortKey, Some noSuchBlock) None) background
           "block" alice start None zeroServerHalf noSuchBlock eq_refl).
Defined.

(** * Further properties *)

(** ** What the methods of [BlockServerRemote] log and leave behind *)

Section BlockServerRemoteEffects.

Context `{L : Libkbfs} {W : Type}.

Implicit Types (b : BlockServerRemote W) (ctx : Context) (id : BlockID)
  (tlfID : TlfID) (context : BlockContext) (s : State W).

Ltac run_method :=
  unfold Get, Put, AddBlockReference, RemoveBlockReference, OnConnect,
    runUnlessCanceled, bind, rpc, outside, logf, ret; simpl.

(** X1: [Get] writes one debug entry.  Its size is -1 when the call failed
    and the length of the response's buffer when the call succeeded, also
    when the key then fails to decode and no buffer is returned; its error
    is the error [Get] returns. *)
Theorem Get_logs_size_and_returned_error b ctx id context s :
  logs (snd (Get b ctx id context s)) =
    logs s ++
    [{| log_level := LevelDebug;
        log_format := "BlockServerRemote.Get id=%s uid=%s sz=%d err=%v";
        log_args :=
          [ArgString (BlockID_String id);
           ArgString (GetWriter context);
           ArgInt
             match fst (GetBlock (client b ctx) (getBid id context)
                          (remote s)) with
             | (res, None) => len (Buf res)
             | (_, Some _) => -1
             end;
           ArgError (snd (fst (Get b ctx id context s)))] |}].
Proof.
  run_method. fold (getBid id context).
  destruct (GetBlock _ _ _) as [[res [e|]] w]; simpl; [reflexivity|].
  destruct (hex.DecodeString _) as [kbuf [e|]]; reflexivity.
Qed.

(** X2: [Put], [AddBlockReference] and [RemoveBlockReference] write one
    debug entry each, after the call, with the error they return; [Put]
    logs the length of the buffer it was given. *)
Theorem Put_Add_Remove_log_returned_error
    b ctx id tlfID context (buf : slice)
    (serverHalf : BlockCryptKeyServerHalf) s :
  logs (snd (Put b ctx id tlfID context buf serverHalf s)) =
    logs s ++
    [{| log_level := LevelDebug;
        log_format := "BlockServerRemote.Put id=%s uid=%s sz=%d err=%v";
        log_args :=
          [ArgString (BlockID_String id);
           ArgString (GetWriter context);
           ArgInt (len buf);
           ArgError (fst (Put b ctx id tlfID context buf serverHalf s))] |}]
  /\
  logs (snd (AddBlockReference b ctx id tlfID context s)) =
    logs s ++
    [{| log_level := LevelDebug;
        log_format :=
          "BlockServerRemote.AddBlockReference id=%s uid=%s err=%v";
        log_args :=
          [ArgString (BlockID_String id);
           ArgString (GetWriter context);
           ArgError (fst (AddBlockReference b ctx id tlfID context s))] |}]
  /\
  logs (snd (RemoveBlockReference b ctx id tlfID context s)) =
    logs s ++
    [{| log_level := LevelDebug;
        log_format :=
          "BlockServerRemote.RemoveBlockReference id=%s uid=%s err=%v";
        log_args :=
          [ArgString (BlockID_String id);
           ArgString (GetWriter context);
           ArgError (fst (RemoveBlockReference b ctx id tlfID context s))] |}].
Proof.
  repeat apply conj; run_method.
  - now destruct (PutBlock _ _ _).
  - now destruct (IncBlockReference _ _ _).
  - now destruct (DecBlockReference _ _ _).
Qed.

(** X3: what [OnConnect] leaves behind.  When the token lookup fails, the
    user ID is not looked up and one warning with the error is logged.
    When the user-ID lookup fails, nothing is logged.  When both succeed,
    one debug entry with the user ID is logged and the remote end is as
    [EstablishSession] leaves it. *)
Theorem OnConnect_lookups_and_log
    b ctx (cli : BlockClient W) s token terr w1 uid uerr w2 :
  GetCurrentToken (config_KBPKI (config b)) ctx (remote s)
    = ((token, terr), w1) ->
  GetCurrentUID (config_KBPKI (config b)) ctx w1 = ((uid, uerr), w2) ->
  (forall e, terr = Some e ->
     remote (snd (OnConnect b ctx cli s)) = w1 /\
     logs (snd (OnConnect b ctx cli s)) =
       logs s ++
       [{| log_level := LevelWarning;
           log_format := "BlockServerRemote: error getting session %q";
           log_args := [ArgError (Some e)] |}]) /\
  (forall e, terr = None -> uerr = Some e ->
     remote (snd (OnConnect b ctx cli s)) = w2 /\
     logs (snd (OnConnect b ctx cli s)) = logs s) /\
  (terr = None -> uerr = None ->
     remote (snd (OnConnect b ctx cli s)) =
       snd (EstablishSession cli {| User := uid; Sid := token |} w2) /\
     logs (snd (OnConnect b ctx cli s)) =
       logs s ++
       [{| log_level := LevelDebug;
           log_format :=
             ("BlockServerRemote.OnConnect establish session for uid %s"
                ++ newline)%string;
           log_args := [ArgString uid] |}]).
Proof.
  intros Htoken Huid.
  repeat split; intros; subst; run_method; rewrite Htoken; simpl;
    try reflexivity; rewrite Huid; simpl; try reflexivity.
  - now destruct (EstablishSession _ _ _), (ctx_Err ctx).
  - now destruct (EstablishSession _ _ _), (ctx_Err ctx).
Qed.

(** X4: [ShouldThrottle] holds of the error [Get] returns exactly when it
    holds of the error the [GetBlock] call returned: a key that fails to
    decode is never taken for throttling, and a throttling answer is never
    lost. *)
Theorem Get_throttles_as_GetBlock_does b ctx id context s :
  ShouldThrottle b (snd (fst (Get b ctx id context s))) =
  ShouldThrottle b
    (snd (fst (GetBlock (client b ctx) (getBid id context) (remote s)))).
Proof.
  destruct (GetBlock (client b ctx) (getBid id context) (remote s))
    as [[res [e|]] w] eqn:Hrpc.
  - now rewrite (Get_rpc_failed _ _ _ _ _ _ _ _ Hrpc).
  - destruct (hex.DecodeString (BlockKey res)) as [kbuf [e|]] eqn:Hdec.
    + rewrite (Get_decode_failed _ _ _ _ _ _ _ _ _ Hrpc Hdec). simpl.
      assert (Hkind : e = hex_ErrLength \/ exists c, e = hex_InvalidByteError c).
      { apply (Decode_error_kind (list_ascii_of_string (BlockKey res))).
        unfold hex.DecodeString in Hdec. now rewrite Hdec. }
      now destruct Hkind as [-> | [c ->]].
    + now rewrite (Get_decoded _ _ _ _ _ _ _ _ Hrpc Hdec).
Qed.

(** X5: for the same block, folder and context, whatever the length of the
    nonce, [RemoveBlockReference] names in its request exactly what
    [AddBlockReference] names in its own: the same block-id combo, nonce,
    folder and charged account. *)
Theorem Remove_names_the_reference_Add_names b ctx id tlfID context s s' :
  exists bid nonce folder chargedTo,
    calls (snd (AddBlockReference b ctx id tlfID context s)) =
      calls s ++
      [ReqIncBlockReference
         {| inc_Bid := bid; inc_Nonce := nonce; inc_Folder := folder;
            inc_ChargedTo := chargedTo |}] /\
    calls (snd (RemoveBlockReference b ctx id tlfID context s')) =
      calls s' ++
      [ReqDecBlockReference
         {| dec_Bid := bid; dec_Nonce := nonce; dec_Folder := folder;
            dec_ChargedTo := chargedTo |}] /\
    length nonce = BlockRefNonceSize.
Proof.
  do 4 eexists. run_method.
  split; [now destruct (IncBlockReference _ _ _)|].
  split; [now destruct (DecBlockReference _ _ _)|].
  rewrite copy_length. apply repeat_length.
Qed.

End BlockServerRemoteEffects.

(** ** [Put] then [Get] *)

Lemma hex_Decode_Encode_cons (v : byte) (rest : bytes) :
  hex.Decode (hex.Encode (v :: rest)) =
    (v :: fst (hex.Decode (hex.Encode rest)),
     snd (hex.Decode (hex.Encode rest))).
Proof.
  destruct v; cbn [hex.Encode]; generalize (hex.Encode rest); intros l;
    change (hex.Decode (?p :: ?q :: l))
      with (match hex.fromHexChar p with
            | None => ([], Some (hex_InvalidByteError p))
            | Some a =>
                match hex.fromHexChar q with
                | None => ([], Some (hex_InvalidByteError q))
                | Some b =>
                    let (dst, err) := hex.Decode l in
                    (byte_of_Z (Z.lor (Z.shiftl a 4) b) :: dst, err)
                end
            end);
    now destruct (hex.Decode l).
Qed.

Lemma hex_round_trip (src : bytes) :
  hex.Decode (hex.Encode src) = (src, None).
Proof.
  induction src as [|v rest IH]; [reflexivity|].
  now rewrite hex_Decode_Encode_cons, IH.
Qed.

Lemma hex_string_round_trip (src : bytes) :
  hex.DecodeString (hex.EncodeToString src) = (src, None).
Proof.
  unfold hex.DecodeString, hex.EncodeToString.
  rewrite list_ascii_of_string_of_list_ascii. apply hex_round_trip.
Qed.

Section PutThenGet.

Context `{L : Libkbfs} {W : Type}.

Implicit Types (b : BlockServerRemote W) (ctx : Context) (id : BlockID)
  (tlfID : TlfID) (context : BlockContext) (s : State W).

(** X6: [Put] followed by [Get].  Take a server half of [ServerHalfSize]
    bytes whose string form decodes from hexadecimal to these bytes, and a
    remote end that answers a [GetBlock] with the key and the buffer of the
    [PutBlock] it has just accepted for the same block-id combo.  If [Put]
    succeeds, a [Get] of the same block by the same writer returns the
    buffer and the server half that were put. *)
Theorem Put_then_Get_returns_what_was_put
    b ctx id tlfID context context' (buf : slice)
    (serverHalf : BlockCryptKeyServerHalf) s :
  length (ServerHalf serverHalf) = ServerHalfSize ->
  hex.DecodeString (ServerHalf_String (ServerHalf serverHalf))
    = (ServerHalf serverHalf, None) ->
  (forall arg w,
     fst (PutBlock (client b ctx) arg w) = None ->
     fst (GetBlock (client b ctx) (put_Bid arg)
            (snd (PutBlock (client b ctx) arg w))) =
       ({| BlockKey := put_BlockKey arg; Buf := put_Buf arg |}, None)) ->
  GetWriter context' = GetWriter context ->
  fst (Put b ctx id tlfID context buf serverHalf s) = None ->
  fst (Get b ctx id context'
         (snd (Put b ctx id tlfID context buf serverHalf s))) =
    (buf, serverHalf, None).
Proof.
  intros Hlen Hhex Hstore Hwriter Hput.
  set (arg := {| put_Bid := {| ChargedTo := GetWriter context;
                               BlockHash := BlockID_String id |};
                 put_BlockKey := ServerHalf_String (ServerHalf serverHalf);
                 put_Folder := TlfID_String tlfID;
                 put_Buf := buf |}).
  assert (Hshape :
    fst (Put b ctx id tlfID context buf serverHalf s)
      = fst (PutBlock (client b ctx) arg (remote s)) /\
    remote (snd (Put b ctx id tlfID context buf serverHalf s))
      = snd (PutBlock (client b ctx) arg (remote s))).
  { unfold Put, bind, rpc, logf, ret. fold arg.
    now destruct (PutBlock (client b ctx) arg (remote s)). }
  destruct Hshape as [Hres Hremote].
  rewrite Hput in Hres. symmetry in Hres.
  specialize (Hstore arg (remote s) Hres). rewrite <- Hremote in Hstore.
  destruct (GetBlock (client b ctx) (put_Bid arg)
              (remote (snd (Put b ctx id tlfID context buf serverHalf s))))
    as [[res err] w] eqn:Hget.
  simpl in Hstore. injection Hstore as -> ->.
  assert (Hget' : GetBlock (client b ctx) (getBid id context')
                    (remote (snd (Put b ctx id tlfID context buf serverHalf s)))
                  = ({| BlockKey := ServerHalf_String (ServerHalf serverHalf);
                        Buf := buf |}, None, w)).
  { unfold getBid. rewrite Hwriter. exact Hget. }
  rewrite (Get_decoded _ _ _ _ _ _ _ _ Hget' Hhex). simpl.
  rewrite copy_same_length.
  - now destruct serverHalf.
  - unfold zeroArray. now rewrite repeat_length.
Qed.

End PutThenGet.

(** ** Start-up: the metadata, key and identity servers *)

Section StartUpProperties.

Variable filepath_Join : string -> string -> string.

Variable MakeLocalUsers : list string -> list LocalUser.

Lemma length_nonzero_nonempty (s : string) :
  (String.length s =? 0)%nat = false <-> s <> EmptyString.
Proof.
  destruct s; simpl; split; congruence.
Qed.

(** X7: which metadata server [makeMDServer] makes.  Without a root
    directory it is the in-memory one, whatever the address says; with a
    root directory it is the on-disk one under that directory when the
    address is absent, and the remote one for that address otherwise. *)
Theorem makeMDServer_by_root_then_address
    (env : Environ) (serverRootDir : option string) :
  (makeMDServer filepath_Join env serverRootDir = NewMDServerMemory <->
   serverRootDir = None) /\
  (forall handlePath mdPath revPath,
     makeMDServer filepath_Join env serverRootDir
       = NewMDServerLocal handlePath mdPath revPath <->
     exists dir,
       serverRootDir = Some dir /\
       os_Getenv env EnvMDServerAddr = EmptyString /\
       handlePath = filepath_Join dir "kbfs_handles" /\
       mdPath = filepath_Join dir "kbfs_md" /\
       revPath = filepath_Join dir "kbfs_revisions") /\
  (forall addr,
     makeMDServer filepath_Join env serverRootDir = NewMDServerRemote addr <->
     serverRootDir <> None /\
     addr = os_Getenv env EnvMDServerAddr /\
     addr <> EmptyString).
Proof.
  unfold makeMDServer, useLocalMDServer, getMDServerAddr.
  destruct serverRootDir as [dir|].
  - destruct (String.length (os_Getenv env EnvMDServerAddr) =? 0)%nat eqn:E.
    + apply length_zero_empty in E.
      repeat split; try discriminate; try congruence.
      * intros [= <- <- <-]. exists dir. now rewrite E.
      * intros [d [[= <-] [_ [-> [-> ->]]]]]. reflexivity.
      * intros [_ [-> H]]. congruence.
    + apply length_nonzero_nonempty in E.
      repeat split; try discriminate; try congruence.
      * intros [d [_ [H _]]]. congruence.
      * intros [_ [-> _]]. reflexivity.
  - repeat split; try discriminate; try congruence.
    + intros [d [H _]]. discriminate.
    + intros [H _]. congruence.
Qed.

(** X8: [makeKeyServer] panics in one case only: a root directory is given,
    the metadata server's address is set, and the metadata server held by
    the configuration is not the remote one. *)
Theorem makeKeyServer_panics_iff
    (env : Environ) (mdServer : MDServer) (serverRootDir : option string) :
  makeKeyServer filepath_Join env mdServer serverRootDir = Panics <->
  serverRootDir <> None /\
  os_Getenv env EnvMDServerAddr <> EmptyString /\
  isLocalMDServer mdServer = true.
Proof.
  unfold makeKeyServer, useLocalKeyServer, useLocalMDServer, getMDServerAddr.
  destruct serverRootDir as [dir|].
  - destruct (String.length (os_Getenv env EnvMDServerAddr) =? 0)%nat eqn:E.
    + apply length_zero_empty in E.
      split; [discriminate|]. intros [_ [H _]]. congruence.
    + apply length_nonzero_nonempty in E.
      destruct mdServer; simpl; split; try discriminate; try tauto.
      * intros _. repeat split; congruence.
      * intros _. repeat split; congruence.
      * intros [_ [_ H]]. discriminate.
  - split; [discriminate|]. intros [H _]. congruence.
Qed.

(** X9: the order of start-up is safe.  When the configuration holds the
    metadata server that [makeMDServer] made from the same environment and
    root directory, [makeKeyServer] does not panic, and the key server is a
    local one exactly when the metadata server is: the remote metadata
    server, with its address, is the remote key server. *)
Theorem makeKeyServer_after_makeMDServer
    (env : Environ) (serverRootDir : option string) :
  exists keyServer,
    makeKeyServer filepath_Join env
      (makeMDServer filepath_Join env serverRootDir) serverRootDir
      = Returns keyServer /\
    isLocalKeyServer keyServer =
      isLocalMDServer (makeMDServer filepath_Join env serverRootDir) /\
    (isLocalKeyServer keyServer = false <->
     makeMDServer filepath_Join env serverRootDir
       = NewMDServerRemote (os_Getenv env EnvMDServerAddr) /\
     keyServer = MDServerRemoteAsKeyServer (os_Getenv env EnvMDServerAddr)).
Proof.
  unfold makeKeyServer, makeMDServer, useLocalKeyServer, useLocalMDServer,
    getMDServerAddr.
  destruct serverRootDir as [dir|].
  - destruct (String.length (os_Getenv env EnvMDServerAddr) =? 0)%nat;
      eexists; (split; [reflexivity|]); simpl; (split; [reflexivity|]);
      split; try discriminate; try tauto.
    intros [H _]; discriminate.
  - eexists; (split; [reflexivity|]); simpl; (split; [reflexivity|]).
    split; [discriminate|]. intros [H _]; discriminate.
Qed.

End StartUpProperties.

(** ** Start-up: the identity service for a local user *)

Section LocalUserProperties.

Variable filepath_Join : string -> string -> string.

Variable MakeLocalUsers : list string -> list LocalUser.

Ltac split_cases :=
  repeat match goal with
    | |- context [match ?x with _ => _ end] => destruct x
    end.

(** X10: [makeKBPKIClient] and the name of the local user.  The empty name
    gives the client of the Keybase daemon, whatever the root directory.
    The function returns an error of its own, instead of the result of a
    constructor, exactly when the name is not empty and is none of the four
    names it knows; the error then names the user and the list. *)
Theorem makeKBPKIClient_knows_four_users
    (serverRootDir : option string) (localUser : string) :
  (localUser = EmptyString ->
   makeKBPKIClient filepath_Join MakeLocalUsers serverRootDir localUser
     = Returns (inl NewKBPKIClient)) /\
  ((exists e,
      makeKBPKIClient filepath_Join MakeLocalUsers serverRootDir localUser
        = Returns (inr e)) <->
   localUser <> EmptyString /\
   ~ In localUser ["strib"; "max"; "chris"; "fred"]%string) /\
  (forall e,
     makeKBPKIClient filepath_Join MakeLocalUsers serverRootDir localUser
       = Returns (inr e) ->
     e = OtherError Unclassified
           ("user " ++ localUser ++ " not in list [strib max chris fred]")
           %string).
Proof.
  unfold makeKBPKIClient.
  destruct (String.eqb_spec localUser EmptyString) as [->|Hne].
  { simpl. split; [reflexivity|]. split; [split|].
    - intros [e He]; discriminate.
    - intros [H _]; congruence.
    - intros e He; discriminate. }
  split; [congruence|].
  cbn [findUser].
  destruct (String.eqb_spec localUser "strib") as [->|H0];
    [|destruct (String.eqb_spec localUser "max") as [->|H1];
      [|destruct (String.eqb_spec localUser "chris") as [->|H2];
        [|destruct (String.eqb_spec localUser "fred") as [->|H3]]]].
  5: { simpl. split.
       - split; [intros _|eexists; reflexivity].
         split; [exact Hne|]. simpl. intuition congruence.
       - now intros e [= <-]. }
  all: split;
    [ split;
      [ intros [e He]; exfalso; revert He; simpl; split_cases; discriminate
      | intros [_ Hnot]; exfalso; apply Hnot; simpl; tauto ]
    | intros e; simpl; split_cases; discriminate ].
Qed.

(** X11: for one of the four names, when [MakeLocalUsers] returns at least
    four users, [makeKBPKIClient] returns a local identity service, in
    memory without a root directory and on disk under [kbfs_favs]
    otherwise.  Its user ID is that of the user at the position of the
    name; its users are those of [MakeLocalUsers] with the assertions of
    the first four replaced. *)
Theorem makeKBPKIClient_serves_the_named_user
    (serverRootDir : option string) (localUser : string) (k : nat) :
  nth_error ["strib"; "max"; "chris"; "fred"]%string k = Some localUser ->
  (4 <= length (MakeLocalUsers ["strib"; "max"; "chris"; "fred"]%string))%nat ->
  exists u localUsers,
    nth_error (MakeLocalUsers ["strib"; "max"; "chris"; "fred"]%string) k
      = Some u /\
    map lu_UID localUsers =
      map lu_UID (MakeLocalUsers ["strib"; "max"; "chris"; "fred"]%string) /\
    map lu_Asserts (firstn 4 localUsers) =
      [["github:strib"]; ["twitter:maxtaco"]; ["twitter:malgorithms"];
       ["twitter:fakalin"]]%string /\
    skipn 4 localUsers =
      skipn 4 (MakeLocalUsers ["strib"; "max"; "chris"; "fred"]%string) /\
    makeKBPKIClient filepath_Join MakeLocalUsers serverRootDir localUser =
      Returns
        (inl match serverRootDir with
             | None => NewKBPKIMemory (lu_UID u) localUsers
             | Some dir =>
                 NewKBPKILocal (lu_UID u) localUsers
                   (filepath_Join dir "kbfs_favs")
             end).
Proof.
  intros Hk Hlen.
  unfold makeKBPKIClient.
  destruct (MakeLocalUsers ["strib"; "max"; "chris"; "fred"]%string)
    as [|u0 [|u1 [|u2 [|u3 rest]]]]; simpl in Hlen; try lia.
  destruct k as [|[|[|[|k]]]]; simpl in Hk;
    try (now destruct k); injection Hk as <-; simpl.
  - exists u0; eexists; repeat apply conj; cycle 4;
      [destruct serverRootDir; reflexivity | reflexivity ..].
  - exists u1; eexists; repeat apply conj; cycle 4;
      [destruct serverRootDir; reflexivity | reflexivity ..].
  - exists u2; eexists; repeat apply conj; cycle 4;
      [destruct serverRootDir; reflexivity | reflexivity ..].
  - exists u3; eexists; repeat apply conj; cycle 4;
      [destruct serverRootDir; reflexivity | reflexivity ..].
Qed.

End LocalUserProperties.

(** ** Start-up: the block server *)

Section BlockServerChoice.

Variable filepath_Join : string -> string -> string.

(** X12: which block server [makeBlockServer] makes, and what it prints.
    Without an address the root directory decides between the in-memory
    server and the on-disk one under [kbfs_block], and nothing is printed;
    with an address the root directory is not looked at, and one line
    naming the address is printed. *)
Theorem makeBlockServer_by_address_then_root
    (env : Environ) (serverRootDir : option string) :
  (makeBlockServer filepath_Join env serverRootDir
     = ([], NewBlockServerMemory) <->
   os_Getenv env EnvBServerAddr = EmptyString /\ serverRootDir = None) /\
  (forall out blockPath,
     makeBlockServer filepath_Join env serverRootDir
       = (out, NewBlockServerLocal blockPath) <->
     out = [] /\
     os_Getenv env EnvBServerAddr = EmptyString /\
     exists dir,
       serverRootDir = Some dir /\
       blockPath = filepath_Join dir "kbfs_block") /\
  (forall out addr,
     makeBlockServer filepath_Join env serverRootDir
       = (out, NewBlockServerRemote addr) <->
     out = [("Using remote bserver " ++ addr ++ newline)%string] /\
     addr = os_Getenv env EnvBServerAddr /\
     addr <> EmptyString) /\
  makeBlockServer filepath_Join env serverRootDir =
    makeBlockServer filepath_Join env
      (if (String.length (os_Getenv env EnvBServerAddr) =? 0)%nat
       then serverRootDir else None).
Proof.
  unfold makeBlockServer.
  destruct (String.length (os_Getenv env EnvBServerAddr) =? 0)%nat eqn:E.
  - apply length_zero_empty in E. rewrite E.
    destruct serverRootDir as [dir|];
      (split; [|split; [|split; [|reflexivity]]]).
    + split; [discriminate | intros [_ H]; discriminate].
    + intros out blockPath. split.
      * intros [= <- <-]. repeat split. now exists dir.
      * intros [-> [_ [d [[= <-] ->]]]]. reflexivity.
    + intros out addr. split; [discriminate | intros [_ [-> H]]; congruence].
    + tauto.
    + intros out blockPath. split; [discriminate|].
      intros [_ [_ [d [H _]]]]. discriminate.
    + intros out addr. split; [discriminate | intros [_ [-> H]]; congruence].
  - apply length_nonzero_nonempty in E.
    split; [|split; [|split; [|reflexivity]]].
    + split; [discriminate | intros [H _]; congruence].
    + intros out blockPath. split; [discriminate|].
      intros [_ [H _]]. congruence.
    + intros out addr. split.
      * intros [= <- <-]. repeat split. exact E.
      * intros [-> [-> _]]. reflexivity.
Qed.

End BlockServerChoice.

(** ** Further concrete runs *)

(** A failed token lookup: one warning, and the remote end as the lookup
    left it. *)
Lemma OnConnect_lookups_witness :
  GetCurrentToken (config_KBPKI (config noToken)) background (remote start)
    = ((EmptyString, Some loggedOut), tt) /\
  logs (snd (OnConnect noToken background
               (blockClient (shortKey, None) None) start)) =
    [{| log_level := LevelWarning;
        log_format := "BlockServerRemote: error getting session %q";
        log_args := [ArgError (Some loggedOut)] |}].
Proof.
  split; [reflexivity|].
  exact (proj2 (proj1
    (OnConnect_lookups_and_log
       noToken background (blockClient (shortKey, None) None) start
       EmptyString (Some loggedOut) tt "uid" None tt eq_refl eq_refl)
    loggedOut eq_refl)).
Defined.

(** A block put on the storing remote end comes back with its key. *)
Lemma Put_then_Get_witness :
  length (ServerHalf key32) = 32%nat /\
  hex.DecodeString (hex.EncodeToString (ServerHalf key32))
    = (ServerHalf key32, None) /\
  fst (Put (L := hexlib) storing background "block" "folder" alice hello
         key32 empty) = None /\
  fst (Get (L := hexlib) storing background "block" alice
         (snd (Put (L := hexlib) storing background "block" "folder" alice
                 hello key32 empty))) =
    (hello, key32, None).
Proof.
  split; [reflexivity|]. split; [reflexivity|]. split; [reflexivity|].
  apply (Put_then_Get_returns_what_was_put (L := hexlib)
           storing background "block" "folder" alice alice hello key32 empty);
    try reflexivity.
  intros arg w _. simpl. unfold sameCombo.
  now rewrite !String.eqb_refl.
Defined.

(** An unknown local user is refused by name. *)
Lemma makeKBPKIClient_unknown_user_witness :
  ("alice"%string <> EmptyString /\
   ~ In "alice"%string ["strib"; "max"; "chris"; "fred"]%string) /\
  exists e, makeKBPKIClient join localUsersOf None "alice" = Returns (inr e).
Proof.
  assert (H : "alice"%string <> EmptyString /\
              ~ In "alice"%string ["strib"; "max"; "chris"; "fred"]%string).
  { split; [discriminate|].
    simpl. intros [H|[H|[H|[H|[]]]]]; discriminate. }
  split; [exact H|].
  exact (proj2 (proj1 (proj2 (makeKBPKIClient_knows_four_users
                                join localUsersOf None "alice"))) H).
Defined.

(** The third of the four local users, served from memory. *)
Lemma makeKBPKIClient_known_user_witness :
  nth_error ["strib"; "max"; "chris"; "fred"]%string 2 = Some "chris"%string /\
  exists u localUsers,
    nth_error (localUsersOf ["strib"; "max"; "chris"; "fred"]%string) 2
      = Some u /\
    map lu_UID localUsers =
      map lu_UID (localUsersOf ["strib"; "max"; "chris"; "fred"]%string) /\
    map lu_Asserts (firstn 4 localUsers) =
      [["github:strib"]; ["twitter:maxtaco"]; ["twitter:malgorithms"];
       ["twitter:fakalin"]]%string /\
    skipn 4 localUsers =
      skipn 4 (localUsersOf ["strib"; "max"; "chris"; "fred"]%string) /\
    makeKBPKIClient join localUsersOf None "chris" =
      Returns (inl (NewKBPKIMemory (lu_UID u) localUsers)).
Proof.
  split; [reflexivity|].
  apply (makeKBPKIClient_serves_the_named_user
           join localUsersOf None "chris" 2 eq_refl).
  simpl. lia.
Defined.
